(** * Page verification probes: [verify_droid.py] and [verify_example.py]

    The two scripts drive a headless browser through Playwright's
    synchronous API: they register two observers on a page, navigate to a
    local URL, wait for a marker text, print any failure, and take a
    screenshot in a [finally] block; the driving block closes the browser
    in another [finally], inside a [with sync_playwright()] block.

    The embedding has three layers:
    - [Py]: the part of Python's semantics the scripts rely on, namely
      exceptions with their class ([except Exception] does not catch
      [KeyboardInterrupt]), [try]/[except]/[finally], and the exit status;
    - [Playwright]: the calls the scripts make to the library, each
      answered by an environment [env] that says what the browser and the
      page do in one run (what a call raises, which console messages and
      page errors arrive while it blocks, when the marker becomes visible);
    - the scripts themselves, transcribed statement by statement. *)

From Stdlib Require Import ZArith DecimalString.
From stdpp Require Import base strings list gmap.

Open Scope Z_scope.

(** ** Python: exceptions and control flow *)

Module Py.

(** The exception classes that matter to the scripts.  [Error] and
    [TimeoutError] are Playwright's ([TimeoutError] is a subclass of
    [Error], itself a subclass of [Exception]); [OtherException] stands
    for any other subclass of [Exception]; [KeyboardInterrupt] derives
    from [BaseException] only. *)
Inductive exn_class :=
  | Error
  | TimeoutError
  | OtherException
  | KeyboardInterrupt.

Record exn := Exn { class_of : exn_class; message : string }.

(** [isinstance(e, Exception)] *)
Definition is_Exception (e : exn) : bool :=
  match class_of e with
  | KeyboardInterrupt => false
  | _ => true
  end.

(** [str(e)], which is what [f"{e}"] interpolates. *)
Definition str (e : exn) : string := message e.

(** How a statement ends: it completes, it raises, or it never returns. *)
Inductive result (A : Type) :=
  | Return (a : A)
  | Raise (e : exn)
  | Blocked.
Arguments Return {A} a.
Arguments Raise {A} e.
Arguments Blocked {A}.

Definition returns {A} (r : result A) : bool :=
  match r with Return _ => true | _ => false end.

(** Exit status of the interpreter once the top-level block has ended:
    0 after normal completion, 1 after an uncaught exception (the
    traceback goes to stderr), death by SIGINT, reported as 130, after an
    uncaught [KeyboardInterrupt]. A run that never ends has none. *)
Definition exit_status (r : result unit) : option Z :=
  match r with
  | Return _ => Some 0
  | Raise e => Some (if is_Exception e then 1 else 130)
  | Blocked => None
  end.

(** [s.startswith(p)] *)
Fixpoint startswith (p s : string) : bool :=
  match p, s with
  | EmptyString, _ => true
  | String a p', String b s' => if decide (a = b) then startswith p' s' else false
  | String _ _, EmptyString => false
  end.

(** [p in s] *)
Fixpoint contains (p s : string) : bool :=
  match s with
  | EmptyString => startswith p EmptyString
  | String _ s' => startswith p s || contains p s'
  end.

Section Control.

(** Statements run against an environment [E] that they only read and a
    world [W] that they change. *)
Context {E W : Type}.

Definition M (A : Type) : Type := E -> W -> result A * W.

Definition ret {A} (a : A) : M A := fun _ w => (Return a, w).

Definition bind {A B} (m : M A) (k : A -> M B) : M B :=
  fun e w =>
    match m e w with
    | (Return a, w') => k a e w'
    | (Raise x, w') => (Raise x, w')
    | (Blocked, w') => (Blocked, w')
    end.

(** [try: body / except Exception as e: handler e] *)
Definition try_except_Exception {A} (body : M A) (handler : exn -> M A) : M A :=
  fun e w =>
    match body e w with
    | (Raise x, w') =>
        if is_Exception x then handler x e w' else (Raise x, w')
    | other => other
    end.

(** [try: body / finally: final].  The [finally] block runs however the
    body ended; if it raises, its exception replaces the pending one. *)
Definition try_finally {A B} (body : M A) (final : M B) : M A :=
  fun e w =>
    match body e w with
    | (Blocked, w') => (Blocked, w')
    | (r, w') =>
        match final e w' with
        | (Return _, w'') => (r, w'')
        | (Raise y, w'') => (Raise y, w'')
        | (Blocked, w'') => (Blocked, w'')
        end
    end.

(** [with mgr as v: body v], for a context manager given by its
    [__enter__] and [__exit__].  [__exit__] receives the pending exception,
    if any, and suppresses it by returning a true value. *)
Definition with_ {T} (enter : M T) (exit : option exn -> M bool)
    (body : T -> M unit) : M unit :=
  fun e w =>
    match enter e w with
    | (Return v, w1) =>
        match body v e w1 with
        | (Return _, w2) =>
            match exit None e w2 with
            | (Return _, w3) => (Return tt, w3)
            | (Raise y, w3) => (Raise y, w3)
            | (Blocked, w3) => (Blocked, w3)
            end
        | (Raise x, w2) =>
            match exit (Some x) e w2 with
            | (Return suppress, w3) =>
                if suppress then (Return tt, w3) else (Raise x, w3)
            | (Raise y, w3) => (Raise y, w3)
            | (Blocked, w3) => (Blocked, w3)
            end
        | (Blocked, w2) => (Blocked, w2)
        end
    | (Raise x, w1) => (Raise x, w1)
    | (Blocked, w1) => (Blocked, w1)
    end.

End Control.

End Py.

Export Py.

Global Instance M_ret {E W} : MRet (@M E W) := fun A a => ret a.
Global Instance M_bind {E W} : MBind (@M E W) := fun A B k m => bind m k.

(** ** The Playwright calls the scripts make *)

Module Playwright.

(** The argument of a ["console"] listener; the scripts read its [text]. *)
Record ConsoleMessage := { text : string }.

(** What a page can emit to its listeners: a console message, or an
    uncaught in-page error (delivered as an [Error] object). *)
Inductive page_event :=
  | console (msg : ConsoleMessage)
  | pageerror (err : exn).

Definition event_name (ev : page_event) : string :=
  match ev with
  | console _ => "console"
  | pageerror _ => "pageerror"
  end.

(** A listener is a Python function called from the library's dispatcher
    while the script is blocked in a call.  The scripts' listeners only
    print, so a listener is given by the lines it prints, in order. *)
Definition printing (line : string) : list string := [line].

Inductive listener :=
  | console_listener (h : ConsoleMessage -> list string)
  | pageerror_listener (h : exn -> list string).

Definition run_listener (l : listener) (ev : page_event) : list string :=
  match l, ev with
  | console_listener h, console msg => h msg
  | pageerror_listener h, pageerror err => h err
  | _, _ => []
  end.

(** Handles. *)
Inductive playwright := PlaywrightObj.
Inductive browser := BrowserObj.
Definition page := nat.

(** File contents. *)
Definition bytes := string.

(** The calls, with the arguments the script passes ([None] for a keyword
    argument that is left out). *)
Inductive api_call :=
  | sync_playwright_enter
  | sync_playwright_exit
  | chromium_launch_call
  | new_page_call
  | on_call (p : page) (event : string)
  | goto_call (p : page) (url : string)
  | wait_for_selector_call (p : page) (selector : string) (timeout : option Z)
  | screenshot_call (p : page) (path : option string) (full_page : option bool)
  | close_call.

(** One entry of a run's history: a call to the library, or one [print],
    with the text it sends to standard output. *)
Inductive entry :=
  | Call (c : api_call)
  | Stdout (line : string).

Definition stdout (t : list entry) : list string :=
  flat_map (fun x => match x with Stdout l => [l] | Call _ => [] end) t.

Definition calls (t : list entry) : list api_call :=
  flat_map (fun x => match x with Call c => [c] | Stdout _ => [] end) t.

Definition is_screenshot (c : api_call) : bool :=
  match c with screenshot_call _ _ _ => true | _ => false end.

Definition is_close (c : api_call) : bool :=
  match c with close_call => true | _ => false end.

(** When the marker text becomes visible once navigation has returned. *)
Inductive marker_behaviour :=
  | VisibleAfter (ms : Z)
  | NeverVisible
  | WaitBroken (err : exn).

(** What the browser and the page do during one run.  For each call the
    scripts make, [.._fails] is the exception the call raises, if any, and
    [.._emits] the events the page emits while the call blocks (the
    synchronous API runs the listeners then).  [marker] describes the
    page once navigation has returned, [wait_call_log] is the tail of the
    message of a timeout, and the two images are what a capture of the
    viewport and a capture of the whole page would contain. *)
Record env := {
  enter_fails : option exn;
  launch_fails : option exn;
  new_page_fails : option exn;
  goto_emits : list page_event;
  goto_fails : option exn;
  wait_emits : list page_event;
  marker : marker_behaviour;
  wait_call_log : string;
  shot_emits : list page_event;
  shot_fails : option exn;
  viewport_png : bytes;
  full_page_png : bytes;
  close_emits : list page_event;
  close_fails : option exn;
  exit_fails : option exn
}.

(** What the script has done and what it holds. *)
Record world := {
  trace : list entry;
  listeners : list (page * (string * listener));
  open_pages : list page;
  next_page : page;
  fs : gmap string bytes
}.

Definition listens (p : page) (ev : page_event)
    (r : page * (string * listener)) : bool :=
  bool_decide (r.1 = p) && bool_decide (r.2.1 = event_name ev).

(** The lines printed when page [p] emits [ev]: its listeners for that
    event run in registration order. *)
Definition fire (ls : list (page * (string * listener))) (p : page)
    (ev : page_event) : list string :=
  flat_map (fun r => if listens p ev r then run_listener r.2.2 ev else []) ls.

Definition dispatch (ls : list (page * (string * listener))) (p : page)
    (evs : list page_event) : list string :=
  flat_map (fire ls p) evs.

Definition with_trace (w : world) (t : list entry) : world :=
  {| trace := t; listeners := listeners w; open_pages := open_pages w;
     next_page := next_page w; fs := fs w |}.

(** Statements of the scripts: they read the [env] and change the [world]. *)
Abbreviation prog := (@M env world).

Definition record (c : api_call) : prog unit :=
  fun _ w => (Return tt, with_trace w (trace w ++ [Call c])).

(** [print(line)] *)
Definition print (line : string) : prog unit :=
  fun _ w => (Return tt, with_trace w (trace w ++ [Stdout line])).

(** The events that arrive while a call on page [p] blocks. *)
Definition deliver (p : page) (evs : env -> list page_event) : prog unit :=
  fun e w =>
    (Return tt,
     with_trace w (trace w ++ map Stdout (dispatch (listeners w) p (evs e)))).

Definition fail_with (o : env -> option exn) : prog unit :=
  fun e w => match o e with Some x => (Raise x, w) | None => (Return tt, w) end.

Definition answer {A} (r : env -> result A) : prog A := fun e w => (r e, w).

(** [page.on(event, f)]: [f] is appended to the page's listeners. *)
Definition add_listener (p : page) (event : string) (f : listener) : prog unit :=
  fun _ w =>
    (Return tt,
     {| trace := trace w; listeners := listeners w ++ [(p, (event, f))];
        open_pages := open_pages w; next_page := next_page w; fs := fs w |}).

Definition page_on (p : page) (event : string) (f : listener) : prog unit :=
  record (on_call p event);;
  add_listener p event f.

Definition goto_result (e : env) : result unit :=
  match goto_fails e with Some x => Raise x | None => Return tt end.

(** [page.goto(url)] *)
Definition page_goto (p : page) (url : string) : prog unit :=
  record (goto_call p url);;
  deliver p goto_emits;;
  answer goto_result.

(** The library's default for [timeout], in milliseconds. *)
Definition default_timeout : Z := 30000.

Definition decimal (n : Z) : string := NilZero.string_of_int (Z.to_int n).

(** The error a call raises when its time bound passes: the message names
    the call and the bound, and ends with the call log. *)
Definition timeout_error (api : string) (ms : Z) (log : string) : exn :=
  Exn TimeoutError (api +:+ ": Timeout " +:+ decimal ms +:+ "ms exceeded." +:+ log).

(** How [wait_for_selector] ends for a given bound: it returns if the
    marker is visible by then and raises [TimeoutError] otherwise; a bound
    of 0 means no bound. *)
Definition wait_result (timeout : option Z) (e : env) : result unit :=
  let t := default default_timeout timeout in
  match marker e with
  | WaitBroken x => Raise x
  | VisibleAfter d =>
      if bool_decide (t = 0 \/ d <= t) then Return tt
      else Raise (timeout_error "Page.wait_for_selector" t (wait_call_log e))
  | NeverVisible =>
      if bool_decide (t = 0) then Blocked
      else Raise (timeout_error "Page.wait_for_selector" t (wait_call_log e))
  end.

(** [page.wait_for_selector(selector, timeout=...)] *)
Definition page_wait_for_selector (p : page) (selector : string)
    (timeout : option Z) : prog unit :=
  record (wait_for_selector_call p selector timeout);;
  deliver p wait_emits;;
  answer (wait_result timeout).

(** What a screenshot contains: the whole scrollable page when
    [full_page] is true, the visible viewport otherwise; [full_page]
    defaults to false. *)
Definition capture (full_page : option bool) (e : env) : bytes :=
  if default false full_page then full_page_png e else viewport_png e.

Definition write_file (path : option string) (data : bytes) : prog unit :=
  fun _ w =>
    (Return tt,
     match path with
     | Some f =>
         {| trace := trace w; listeners := listeners w;
            open_pages := open_pages w; next_page := next_page w;
            fs := <[f := data]> (fs w) |}
     | None => w
     end).

(** [page.screenshot(path=..., full_page=...)]: the image is written to
    [path] once it has been captured, and returned. *)
Definition page_screenshot (p : page) (path : option string)
    (full_page : option bool) : prog bytes :=
  record (screenshot_call p path full_page);;
  deliver p shot_emits;;
  fail_with shot_fails;;
  data ← answer (fun e => Return (capture full_page e));
  write_file path data;;
  mret data.

(** [p.chromium.launch()] *)
Definition chromium_launch (p : playwright) : prog browser :=
  record chromium_launch_call;;
  fail_with launch_fails;;
  mret BrowserObj.

(** [browser.new_page()]: a page nothing listens to yet. *)
Definition open_page : prog page :=
  fun _ w =>
    (Return (next_page w),
     {| trace := trace w; listeners := listeners w;
        open_pages := open_pages w ++ [next_page w];
        next_page := S (next_page w); fs := fs w |}).

Definition new_page (b : browser) : prog page :=
  record new_page_call;;
  fail_with new_page_fails;;
  open_page.

(** [browser.close()]: the open pages may still emit while they close. *)
Definition deliver_all (evs : env -> list page_event) : prog unit :=
  fun e w =>
    (Return tt,
     with_trace w
       (trace w ++
        map Stdout
          (flat_map (fun p => dispatch (listeners w) p (evs e)) (open_pages w)))).

Definition forget_pages : prog unit :=
  fun _ w =>
    (Return tt,
     {| trace := trace w; listeners := listeners w; open_pages := [];
        next_page := next_page w; fs := fs w |}).

Definition browser_close (b : browser) : prog unit :=
  record close_call;;
  deliver_all close_emits;;
  fail_with close_fails;;
  forget_pages.

(** [sync_playwright()]: [__enter__] starts the driver and returns the
    library object; [__exit__] stops the driver and returns [None], so it
    suppresses nothing. *)
Definition sync_playwright_enter_ : prog playwright :=
  record sync_playwright_enter;;
  fail_with enter_fails;;
  mret PlaywrightObj.

Definition sync_playwright_exit_ (pending : option exn) : prog bool :=
  record sync_playwright_exit;;
  fail_with exit_fails;;
  mret false.

Definition with_sync_playwright (body : playwright -> prog unit) : prog unit :=
  with_ sync_playwright_enter_ sync_playwright_exit_ body.

End Playwright.

Export Playwright.

(** ** The scripts *)

(** [verify_droid.py], lines 3 to 14. *)
Definition verify_droid (page : page) : prog unit :=
  page_on page "console"
    (console_listener (fun msg => printing ("Console: " +:+ text msg)));;
  page_on page "pageerror"
    (pageerror_listener (fun err => printing ("Page Error: " +:+ str err)));;
  try_finally
    (try_except_Exception
       (page_goto page "http://localhost:3000";;
        page_wait_for_selector page "text=Droid" (Some 5000))
       (fun e => print ("Error: " +:+ str e)))
    (page_screenshot page (Some "verification.png") None).

(** [verify_droid.py], lines 16 to 23. *)
Definition main_droid : prog unit :=
  with_sync_playwright (fun p =>
    browser ← chromium_launch p;
    page ← new_page browser;
    try_finally (verify_droid page) (browser_close browser)).

(** [verify_example.py], lines 3 to 12. *)
Definition verify_example (page : page) : prog unit :=
  page_on page "console"
    (console_listener (fun msg => printing ("Console: " +:+ text msg)));;
  page_on page "pageerror"
    (pageerror_listener (fun err => printing ("Page Error: " +:+ str err)));;
  try_finally
    (try_except_Exception
       (page_goto page "http://localhost:5173";;
        page_wait_for_selector page "text=Pi Web UI Example" (Some 5000))
       (fun e => print ("Error: " +:+ str e)))
    (page_screenshot page (Some "example.png") None).

(** [verify_example.py], lines 14 to 21. *)
Definition main_example : prog unit :=
  with_sync_playwright (fun p =>
    browser ← chromium_launch p;
    page ← new_page browser;
    try_finally (verify_example page) (browser_close browser)).

(** The two routines differ in three constants only. *)
Inductive script := Droid | Example.

Record target := {
  url : string;
  selector : string;
  timeout_ms : Z;
  screenshot_path : string
}.

Definition target_of (s : script) : target :=
  match s with
  | Droid =>
      {| url := "http://localhost:3000"; selector := "text=Droid";
         timeout_ms := 5000; screenshot_path := "verification.png" |}
  | Example =>
      {| url := "http://localhost:5173"; selector := "text=Pi Web UI Example";
         timeout_ms := 5000; screenshot_path := "example.png" |}
  end.

Definition verify_of (s : script) : page -> prog unit :=
  match s with Droid => verify_droid | Example => verify_example end.

Definition main_of (s : script) : prog unit :=
  match s with Droid => main_droid | Example => main_example end.

(** The shape the two routines share, with the constants as a parameter. *)
Definition probe (t : target) (page : page) : prog unit :=
  page_on page "console"
    (console_listener (fun msg => printing ("Console: " +:+ text msg)));;
  page_on page "pageerror"
    (pageerror_listener (fun err => printing ("Page Error: " +:+ str err)));;
  try_finally
    (try_except_Exception
       (page_goto page (url t);;
        page_wait_for_selector page (selector t) (Some (timeout_ms t)))
       (fun e => print ("Error: " +:+ str e)))
    (page_screenshot page (Some (screenshot_path t)) None).

Definition driver (t : target) : prog unit :=
  with_sync_playwright (fun p =>
    browser ← chromium_launch p;
    page ← new_page browser;
    try_finally (probe t page) (browser_close browser)).

(** The world in which the interpreter starts a script: nothing printed,
    no page, and whatever files the directory already holds. *)
Definition boot (files : gmap string bytes) : world :=
  {| trace := []; listeners := []; open_pages := []; next_page := 0%nat;
     fs := files |}.

(** ** Vocabulary of the statements *)

(** The line each of the two observers prints for an event. *)
Definition line_of (ev : page_event) : string :=
  match ev with
  | console msg => "Console: " +:+ text msg
  | pageerror err => "Page Error: " +:+ str err
  end.

(** The two listeners the routines register on their page. *)
Definition observers (p : page) : list (page * (string * listener)) :=
  [(p, ("console",
        console_listener (fun msg => printing ("Console: " +:+ text msg))));
   (p, ("pageerror",
        pageerror_listener (fun err => printing ("Page Error: " +:+ str err))))].

(** Nothing listens to page [p] yet, as for a page [new_page] just made. *)
Definition fresh_page (w : world) (p : page) : bool :=
  forallb (fun r => negb (bool_decide (r.1 = p))) (listeners w).

(** How steps 2 and 3 (navigation, then the wait) end. *)
Definition steps_2_3 (t : target) (e : env) : result unit :=
  match goto_result e with
  | Return _ => wait_result (Some (timeout_ms t)) e
  | r => r
  end.

(** What a run has added to the history of the world it started from. *)
Definition added (w w' : world) : list entry :=
  drop (length (trace w)) (trace w').

(** ** Basic facts *)

Lemma verify_of_probe (s : script) : verify_of s = probe (target_of s).
Proof. destruct s; reflexivity. Qed.

Lemma main_of_driver (s : script) : main_of s = driver (target_of s).
Proof. destruct s; reflexivity. Qed.

Lemma timeout_of (s : script) : timeout_ms (target_of s) = 5000.
Proof. destruct s; reflexivity. Qed.

Lemma stdout_app (a b : list entry) : stdout (a ++ b) = stdout a ++ stdout b.
Proof. unfold stdout. apply flat_map_app. Qed.

Lemma calls_app (a b : list entry) : calls (a ++ b) = calls a ++ calls b.
Proof. unfold calls. apply flat_map_app. Qed.

Lemma calls_cons_call (c : api_call) (t : list entry) :
  calls (Call c :: t) = c :: calls t.
Proof. reflexivity. Qed.

Lemma stdout_lines (l : list string) : stdout (map Stdout l) = l.
Proof. induction l as [|x l IH]; simpl; [reflexivity | now rewrite IH]. Qed.

Lemma calls_lines (l : list string) : calls (map Stdout l) = [].
Proof. induction l as [|x l IH]; simpl; [reflexivity | exact IH]. Qed.

Lemma added_app (w w' : world) (t : list entry) :
  trace w' = trace w ++ t -> added w w' = t.
Proof. intros H. unfold added. rewrite H. apply drop_app_length. Qed.

Lemma fire_app (l1 l2 : list (page * (string * listener))) p ev :
  fire (l1 ++ l2) p ev = fire l1 p ev ++ fire l2 p ev.
Proof. unfold fire. apply flat_map_app. Qed.

Lemma fire_observers (p : page) (ev : page_event) :
  fire (observers p) p ev = [line_of ev].
Proof.
  unfold fire, observers, listens. simpl.
  rewrite (bool_decide_true (p = p)) by reflexivity.
  destruct ev; reflexivity.
Qed.

Lemma fire_fresh (ls : list (page * (string * listener))) p ev :
  forallb (fun r => negb (bool_decide (r.1 = p))) ls = true ->
  fire ls p ev = [].
Proof.
  induction ls as [|r ls IH]; simpl; intros H; [reflexivity|].
  apply andb_true_iff in H as [Hr Hls]. unfold listens.
  destruct (bool_decide (r.1 = p)); [discriminate|]. simpl. auto.
Qed.

Lemma dispatch_forwards (ls : list (page * (string * listener))) p evs ev :
  In ev evs -> In (line_of ev) (dispatch (ls ++ observers p) p evs).
Proof.
  intros H. unfold dispatch. apply in_flat_map. exists ev. split; [exact H|].
  rewrite fire_app, fire_observers. apply in_or_app. right. now left.
Qed.

Lemma dispatch_fresh (ls : list (page * (string * listener))) p evs :
  forallb (fun r => negb (bool_decide (r.1 = p))) ls = true ->
  dispatch (ls ++ observers p) p evs = map line_of evs.
Proof.
  intros H. unfold dispatch.
  induction evs as [|ev evs IH]; simpl; [reflexivity|].
  rewrite fire_app, fire_observers, (fire_fresh _ _ _ H), IH. reflexivity.
Qed.

Lemma line_of_not_Error (ev : page_event) : startswith "Error:" (line_of ev) = false.
Proof. destruct ev; reflexivity. Qed.

(** ** Standard output as a stream of characters *)

Definition newline : Ascii.ascii :=
  Ascii.Ascii false true false true false false false false.

(** What the prints of a run have written: each [print] writes its text
    and a newline. *)
Definition written (out : list string) : string :=
  fold_right (fun t acc => t +:+ String newline acc) EmptyString out.

(** The lines of a text: it is cut at each newline, and a final newline
    ends the last line without opening another. *)
Fixpoint lines (s : string) : list string :=
  match s with
  | EmptyString => []
  | String c s' =>
      if Ascii.eqb c newline then EmptyString :: lines s'
      else match lines s' with
           | [] => [String c EmptyString]
           | l :: ls => String c l :: ls
           end
  end.

(** The lines one [print] of [t] writes. *)
Definition text_lines (t : string) : list string :=
  lines (t +:+ String newline EmptyString).

Fixpoint no_newline (t : string) : bool :=
  match t with
  | EmptyString => true
  | String c t' => negb (Ascii.eqb c newline) && no_newline t'
  end.

(** None of the lines starts with "Error:". *)
Definition Error_free (ls : list string) : bool :=
  forallb (fun l => negb (startswith "Error:" l)) ls.

(** No line of what the observers print for [ev] starts with "Error:":
    the first never does, the later ones are the later lines of the
    console message or of the page error. *)
Definition quiet (ev : page_event) : bool :=
  Error_free (text_lines (line_of ev)).

Lemma text_lines_nonempty (t : string) : text_lines t <> [].
Proof.
  unfold text_lines. destruct t as [|c t]; simpl.
  - discriminate.
  - destruct (Ascii.eqb c newline); [discriminate|].
    destruct (lines (t +:+ String newline "")); discriminate.
Qed.

Lemma lines_print (t rest : string) :
  lines (t +:+ String newline rest) = text_lines t ++ lines rest.
Proof.
  unfold text_lines. induction t as [|c t IH]; [reflexivity|].
  simpl. destruct (Ascii.eqb c newline).
  - rewrite IH. reflexivity.
  - rewrite IH. pose proof (text_lines_nonempty t) as Hne.
    unfold text_lines in Hne.
    destruct (lines (t +:+ String newline "")); [contradiction|reflexivity].
Qed.

Lemma lines_written (out : list string) :
  lines (written out) = flat_map text_lines out.
Proof.
  induction out as [|t out IH]; [reflexivity|].
  cbn [written fold_right flat_map]. rewrite lines_print. f_equal. exact IH.
Qed.

Lemma text_lines_prepend (p t hd : string) (tl : list string) :
  no_newline p = true ->
  text_lines t = hd :: tl ->
  text_lines (p +:+ t) = (p +:+ hd) :: tl.
Proof.
  unfold text_lines. intros Hp Ht.
  induction p as [|c p IH]; [exact Ht|].
  cbn [no_newline] in Hp. apply andb_true_iff in Hp as [Hc Hp].
  simpl. apply negb_true_iff in Hc. rewrite Hc, (IH Hp). reflexivity.
Qed.

Lemma Error_free_filter (ls : list string) :
  Error_free ls = true -> List.filter (startswith "Error:") ls = [].
Proof.
  unfold Error_free. induction ls as [|l ls IH]; [reflexivity|].
  cbn [forallb List.filter]. intros H. apply andb_true_iff in H as [Hl Hls].
  apply negb_true_iff in Hl. rewrite Hl. auto.
Qed.

Lemma quiet_events_filter (evs : list page_event) :
  forallb quiet evs = true ->
  List.filter (startswith "Error:") (flat_map text_lines (map line_of evs)) = [].
Proof.
  induction evs as [|ev evs IH]; [reflexivity|].
  cbn [forallb map flat_map]. intros H. apply andb_true_iff in H as [Hev Hevs].
  rewrite List.filter_app, (Error_free_filter _ Hev), (IH Hevs). reflexivity.
Qed.

Lemma Error_text_lines (msg hd : string) (tl : list string) :
  text_lines msg = hd :: tl ->
  text_lines ("Error: " +:+ msg) = ("Error: " +:+ hd) :: tl.
Proof. now apply text_lines_prepend. Qed.

(** ** What one call of the routine does

    The next three definitions spell out, for an environment, the history
    the routine adds, how it ends and the files it leaves; [probe_run]
    proves that this is what the code computes.  [ls] is the list of
    listeners once the routine has registered its own. *)

Definition caught (r : result unit) : result unit :=
  match r with
  | Raise x => if is_Exception x then Return tt else Raise x
  | r => r
  end.

Definition probe_outcome (t : target) (e : env) : result unit :=
  match steps_2_3 t e with
  | Blocked => Blocked
  | r => match shot_fails e with Some y => Raise y | None => caught r end
  end.

Definition probe_history (t : target) (p : page)
    (ls : list (page * (string * listener))) (e : env) : list entry :=
  [Call (on_call p "console"); Call (on_call p "pageerror");
   Call (goto_call p (url t))] ++
  map Stdout (dispatch ls p (goto_emits e)) ++
  match goto_result e with
  | Return _ =>
      Call (wait_for_selector_call p (selector t) (Some (timeout_ms t))) ::
      map Stdout (dispatch ls p (wait_emits e))
  | _ => []
  end ++
  match steps_2_3 t e with
  | Raise x => if is_Exception x then [Stdout ("Error: " +:+ str x)] else []
  | _ => []
  end ++
  match steps_2_3 t e with
  | Blocked => []
  | _ =>
      Call (screenshot_call p (Some (screenshot_path t)) None) ::
      map Stdout (dispatch ls p (shot_emits e))
  end.

Definition probe_files (t : target) (e : env) (files : gmap string bytes) :
    gmap string bytes :=
  match steps_2_3 t e, shot_fails e with
  | Blocked, _ => files
  | _, Some _ => files
  | _, None => <[screenshot_path t := viewport_png e]> files
  end.

Ltac reassoc := repeat (rewrite <- app_assoc || (progress (cbn [app]))).


Lemma probe_run (t : target) (p : page) (e : env) (w : world) :
  probe t p e w =
  (probe_outcome t e,
   {| trace := trace w ++ probe_history t p (listeners w ++ observers p) e;
      listeners := listeners w ++ observers p;
      open_pages := open_pages w;
      next_page := next_page w;
      fs := probe_files t e (fs w) |}).
Proof.
  unfold probe, probe_outcome, probe_history, probe_files, steps_2_3.
  unfold page_on, page_goto, page_wait_for_selector, page_screenshot.
  unfold try_finally, try_except_Exception, mbind, mret, M_bind, M_ret, bind, ret.
  unfold record, add_listener, deliver, answer, fail_with, print, write_file,
    with_trace, capture, observers.
  cbn [trace listeners open_pages next_page fs fst snd default].
  destruct (goto_result e) as [[]|x|] eqn:Hg;
    [destruct (wait_result (Some (timeout_ms t)) e) as [[]|x|] eqn:Hw| |];
    try (destruct (is_Exception x) eqn:Hx);
    cbn [trace listeners open_pages next_page fs caught]; rewrite ?Hx;
    try (destruct (shot_fails e));
    cbn [trace listeners open_pages next_page fs];
    reassoc; rewrite ?app_nil_r; reflexivity.
Qed.

(** With the bound the scripts pass, the wait always ends. *)
Lemma wait_result_ends (ms : Z) (e : env) :
  ms <> 0 -> wait_result (Some ms) e <> Blocked.
Proof.
  intros Hms. unfold wait_result. cbn [default from_option id].
  destruct (marker e) as [d| |x]; try discriminate.
  - destruct (bool_decide _); discriminate.
  - rewrite bool_decide_false by exact Hms. discriminate.
Qed.

Lemma steps_2_3_ends (s : script) (e : env) : steps_2_3 (target_of s) e <> Blocked.
Proof.
  unfold steps_2_3. destruct (goto_result e) as [[]|x|] eqn:Hg.
  - apply wait_result_ends. rewrite timeout_of. discriminate.
  - discriminate.
  - unfold goto_result in Hg. destruct (goto_fails e); discriminate.
Qed.

(** Steps 2 and 3 end without an exception, or with one that
    [except Exception] catches. *)
Definition swallowed (r : result unit) : bool :=
  match r with
  | Return _ => true
  | Raise x => is_Exception x
  | Blocked => false
  end.

(** The marker is not visible when [ms] milliseconds have passed. *)
Definition marker_late (ms : Z) (m : marker_behaviour) : bool :=
  match m with
  | VisibleAfter d => bool_decide (ms < d)
  | NeverVisible => true
  | WaitBroken _ => false
  end.

Lemma wait_result_late (ms : Z) (e : env) :
  0 < ms -> marker_late ms (marker e) = true ->
  wait_result (Some ms) e =
  Raise (timeout_error "Page.wait_for_selector" ms (wait_call_log e)).
Proof.
  intros Hms Hlate. unfold wait_result. cbn [default from_option id].
  destruct (marker e) as [d| |x]; cbn [marker_late] in Hlate.
  - apply bool_decide_eq_true_1 in Hlate.
    rewrite bool_decide_false by lia. reflexivity.
  - rewrite bool_decide_false by lia. reflexivity.
  - discriminate.
Qed.

Lemma wait_result_in_time (ms d : Z) (e : env) :
  marker e = VisibleAfter d -> d <= ms -> wait_result (Some ms) e = Return tt.
Proof.
  intros Hm Hd. unfold wait_result. cbn [default from_option id]. rewrite Hm.
  rewrite bool_decide_true by (right; exact Hd). reflexivity.
Qed.

(** ** Environments used as concrete inputs *)

(** A run in which only the listed calls misbehave: [new_page], [goto]
    and [screenshot] raise what is given, the page logs one console
    message during navigation, and the marker behaves as [m]. *)
Definition run_where (new_page_exn goto_exn shot_exn : option exn)
    (m : marker_behaviour) : env :=
  {| enter_fails := None; launch_fails := None; new_page_fails := new_page_exn;
     goto_emits := [console {| text := "ready" |}]; goto_fails := goto_exn;
     wait_emits := []; marker := m;
     wait_call_log := "";
     shot_emits := []; shot_fails := shot_exn;
     viewport_png := "viewport"; full_page_png := "full page";
     close_emits := []; close_fails := None; exit_fails := None |}.

Definition target_closed : exn :=
  Exn Error "Page.screenshot: Target page, context or browser has been closed".

Definition connection_refused : exn :=
  Exn Error "Page.goto: net::ERR_CONNECTION_REFUSED at http://localhost:3000/".

Definition interrupted : exn := Exn KeyboardInterrupt "".

(** The page shows the marker after 1.2 seconds and nothing fails. *)
Definition healthy : env := run_where None None None (VisibleAfter 1200).

(** The page shows the marker, but the capture fails. *)
Definition capture_fails : env :=
  run_where None None (Some target_closed) (VisibleAfter 1200).

(** Nothing listens on the port. *)
Definition unreachable : env :=
  run_where None (Some connection_refused) None NeverVisible.

(** The user presses Ctrl-C during navigation. *)
Definition ctrl_c : env := run_where None (Some interrupted) None NeverVisible.

(** The marker never shows, and the capture fails as well. *)
Definition no_marker_no_capture : env :=
  run_where None None (Some target_closed) NeverVisible.

(** The page cannot be created. *)
Definition no_page : env :=
  run_where (Some (Exn Error "Browser.new_page: Target closed")) None None
    (VisibleAfter 1200).

(** ** The routine: calls made, lines printed, way of ending *)

Lemma probe_calls (t : target) (p : page)
    (ls : list (page * (string * listener))) (e : env) :
  calls (probe_history t p ls e) =
  [on_call p "console"; on_call p "pageerror"; goto_call p (url t)] ++
  match goto_result e with
  | Return _ => [wait_for_selector_call p (selector t) (Some (timeout_ms t))]
  | _ => []
  end ++
  match steps_2_3 t e with
  | Blocked => []
  | _ => [screenshot_call p (Some (screenshot_path t)) None]
  end.
Proof.
  unfold probe_history. rewrite !calls_app, calls_lines.
  destruct (goto_result e), (steps_2_3 t e) as [[]|x|];
    try destruct (is_Exception x);
    cbn; rewrite ?calls_lines; reflexivity.
Qed.

Lemma probe_added (t : target) (p : page) (e : env) (w : world) :
  added w (probe t p e w).2 = probe_history t p (listeners w ++ observers p) e.
Proof. apply added_app. rewrite probe_run. reflexivity. Qed.

(** C1, as the specification states it, fails: when the screenshot call
    raises, [verify_droid] passes that exception on to its caller. *)
Lemma verify_droid_raises_when_capture_fails :
  (verify_droid 0%nat capture_fails (boot ∅)).1 = Raise target_closed.
Proof. reflexivity. Qed.

(** C1, amended: when navigation and the wait end normally or with an
    exception deriving from [Exception], the routine ends exactly as its
    screenshot call does: it returns when the capture succeeds, and an
    exception raised by the capture reaches the caller. *)
Theorem verify_ends_as_capture_does (s : script) (p : page) (e : env) (w : world) :
  swallowed (steps_2_3 (target_of s) e) = true ->
  (verify_of s p e w).1 =
  match shot_fails e with None => Return tt | Some y => Raise y end.
Proof.
  intros Hs. rewrite verify_of_probe, probe_run. cbn [fst].
  unfold probe_outcome.
  destruct (steps_2_3 (target_of s) e) as [[]|x|]; cbn [swallowed] in Hs.
  - reflexivity.
  - cbn [caught]. rewrite Hs. reflexivity.
  - discriminate.
Qed.

Lemma verify_ends_as_capture_does_witness :
  swallowed (steps_2_3 (target_of Droid) unreachable) = true /\
  (verify_of Droid 0%nat unreachable (boot ∅)).1 = Return tt.
Proof.
  split; [reflexivity|].
  exact (verify_ends_as_capture_does Droid 0%nat unreachable (boot ∅) eq_refl).
Defined.

(** C2: however navigation and the wait end, the routine calls
    [page.screenshot] exactly once, and that call is the last one it
    makes. *)
Theorem screenshot_once_and_last (s : script) (p : page) (e : env) (w : world) :
  let w' := (verify_of s p e w).2 in
  trace w' = trace w ++ added w w' /\
  length (List.filter is_screenshot (calls (added w w'))) = 1%nat /\
  last (calls (added w w')) =
  Some (screenshot_call p (Some (screenshot_path (target_of s))) None).
Proof.
  cbn zeta. rewrite verify_of_probe, probe_added, probe_calls.
  split; [rewrite probe_run; reflexivity|].
  pose proof (steps_2_3_ends s e) as Hends.
  destruct (goto_result e), (steps_2_3 (target_of s) e);
    try contradiction; split; reflexivity.
Qed.

(** C3, as stated, fails: the image [verify_droid] leaves at
    [verification.png] is the capture of the viewport, not of the whole
    scrollable page. *)
Lemma verify_droid_captures_viewport_only :
  fs (verify_droid 0%nat healthy (boot ∅)).2 !! "verification.png"
    = Some (viewport_png healthy) /\
  fs (verify_droid 0%nat healthy (boot ∅)).2 !! "verification.png"
    <> Some (full_page_png healthy).
Proof. split; [reflexivity | discriminate]. Qed.

(** C3, amended: in every run the routine makes one screenshot call, with
    the fixed path and without [full_page], so that the capture is that of
    the viewport; when the call succeeds, that image is the file at the
    fixed path, and when it raises the files are as they were. *)
Theorem screenshot_is_viewport_at_fixed_path
    (s : script) (p : page) (e : env) (w : world) :
  let w' := (verify_of s p e w).2 in
  let path := screenshot_path (target_of s) in
  List.filter is_screenshot (calls (added w w')) =
    [screenshot_call p (Some path) None] /\
  capture None e = viewport_png e /\
  fs w' =
    match shot_fails e with
    | None => <[path := viewport_png e]> (fs w)
    | Some _ => fs w
    end.
Proof.
  cbn zeta. rewrite verify_of_probe, probe_added, probe_calls.
  pose proof (steps_2_3_ends s e) as Hends.
  split; [|split; [reflexivity|]].
  - destruct (goto_result e), (steps_2_3 (target_of s) e);
      try contradiction; reflexivity.
  - rewrite probe_run. cbn [snd fs]. unfold probe_files.
    destruct (steps_2_3 (target_of s) e); try contradiction; reflexivity.
Qed.

(** C4, as stated, fails: a [KeyboardInterrupt] raised during navigation
    is not caught by [except Exception]; nothing is printed for it and,
    after the screenshot, it is raised to the caller. *)
Lemma verify_droid_lets_interrupt_through :
  (verify_droid 0%nat ctrl_c (boot ∅)).1 = Raise interrupted /\
  List.filter (startswith "Error:")
    (stdout (trace (verify_droid 0%nat ctrl_c (boot ∅)).2)) = [].
Proof. split; reflexivity. Qed.

(** C4, amended: an exception that navigation or the wait raises is
    handled according to its class.  If it derives from [Exception] it is
    caught inside the routine: the text "Error: " followed by its message
    is printed, so that a line starting with "Error:" goes to standard
    output, and the screenshot call comes next.  If it does not
    ([KeyboardInterrupt]) it is not caught and nothing is printed for it:
    the screenshot call comes next all the same.  In both cases only
    lines printed by the observers precede and follow.  The routine then
    ends as follows: when the screenshot call raises, with the exception
    of the screenshot; otherwise normally if the exception was caught,
    and with that exception, passed on to the caller, if it was not. *)
Theorem exception_of_steps_2_3_by_class
    (s : script) (p : page) (e : env) (w : world) (x : exn) :
  steps_2_3 (target_of s) e = Raise x ->
  let r := verify_of s p e w in
  let ls := listeners w ++ observers p in
  (exists before,
     added w r.2 =
       before ++
       (if is_Exception x then [Stdout ("Error: " +:+ str x)] else []) ++
       Call (screenshot_call p (Some (screenshot_path (target_of s))) None) ::
       map Stdout (dispatch ls p (shot_emits e)) /\
     stdout before =
       dispatch ls p (goto_emits e) ++
       match goto_result e with
       | Return _ => dispatch ls p (wait_emits e)
       | _ => []
       end /\
     List.filter is_screenshot (calls before) = []) /\
  (exists first rest,
     text_lines ("Error: " +:+ str x) = first :: rest /\
     startswith "Error:" first = true) /\
  r.1 = match shot_fails e with
        | Some y => Raise y
        | None => if is_Exception x then Return tt else Raise x
        end.
Proof.
  intros Hx. cbn zeta. rewrite verify_of_probe, probe_added, probe_run.
  cbn [fst]. unfold probe_outcome, probe_history. rewrite Hx. cbn [caught].
  set (ls := listeners w ++ observers p).
  split; [|split].
  - exists ([Call (on_call p "console"); Call (on_call p "pageerror");
             Call (goto_call p (url (target_of s)))] ++
            map Stdout (dispatch ls p (goto_emits e)) ++
            match goto_result e with
            | Return _ =>
                Call (wait_for_selector_call p (selector (target_of s))
                        (Some (timeout_ms (target_of s)))) ::
                map Stdout (dispatch ls p (wait_emits e))
            | _ => []
            end).
    split; [|split].
    + rewrite <- !app_assoc. reflexivity.
    + rewrite !stdout_app, stdout_lines.
      destruct (goto_result e); cbn [stdout flat_map app];
        rewrite ?app_nil_r; try reflexivity.
      change (flat_map (fun x0 : entry => match x0 with
                                          | Call _ => []
                                          | Stdout l => [l]
                                          end)) with stdout.
      rewrite stdout_lines. reflexivity.
    + rewrite !calls_app, calls_lines.
      destruct (goto_result e); cbn [calls flat_map app];
        rewrite ?app_nil_r; try reflexivity.
      change (flat_map (fun x0 : entry => match x0 with
                                          | Call c => [c]
                                          | Stdout _ => []
                                          end)) with calls.
      rewrite calls_lines. reflexivity.
  - destruct (text_lines (str x)) as [|hd tl] eqn:Hm;
      [now apply text_lines_nonempty in Hm|].
    exists ("Error: " +:+ hd), tl.
    split; [now apply Error_text_lines | reflexivity].
  - destruct (shot_fails e), (is_Exception x); reflexivity.
Qed.

Lemma exception_of_steps_2_3_by_class_witness :
  steps_2_3 (target_of Droid) unreachable = Raise connection_refused /\
  (verify_of Droid 0%nat unreachable (boot ∅)).1 = Return tt /\
  steps_2_3 (target_of Droid) ctrl_c = Raise interrupted /\
  (verify_of Droid 0%nat ctrl_c (boot ∅)).1 = Raise interrupted.
Proof.
  split; [reflexivity|]. split; [|split; [reflexivity|]].
  - exact (proj2 (proj2 (exception_of_steps_2_3_by_class
                           Droid 0%nat unreachable (boot ∅) connection_refused
                           eq_refl))).
  - exact (proj2 (proj2 (exception_of_steps_2_3_by_class
                           Droid 0%nat ctrl_c (boot ∅) interrupted eq_refl))).
Defined.

(** ** The driving block: calls made and way of ending *)

(** How a block inside [with sync_playwright()] ends once [__exit__] has
    run. *)
Definition leave (e : env) (r : result unit) : result unit :=
  match r with
  | Blocked => Blocked
  | r => match exit_fails e with Some y => Raise y | None => r end
  end.

Definition driver_outcome (t : target) (e : env) : result unit :=
  match enter_fails e, launch_fails e, new_page_fails e with
  | Some x, _, _ => Raise x
  | None, Some x, _ => leave e (Raise x)
  | None, None, Some x => leave e (Raise x)
  | None, None, None =>
      match probe_outcome t e with
      | Blocked => Blocked
      | r => leave e (match close_fails e with Some y => Raise y | None => r end)
      end
  end.

Definition driver_history (t : target) (w : world) (e : env) : list entry :=
  let p := next_page w in
  let ls := listeners w ++ observers p in
  Call sync_playwright_enter ::
  match enter_fails e with
  | Some _ => []
  | None =>
      Call chromium_launch_call ::
      match launch_fails e with
      | Some _ => [Call sync_playwright_exit]
      | None =>
          Call new_page_call ::
          match new_page_fails e with
          | Some _ => [Call sync_playwright_exit]
          | None =>
              probe_history t p ls e ++
              match probe_outcome t e with
              | Blocked => []
              | _ =>
                  Call close_call ::
                  map Stdout
                    (flat_map (fun q => dispatch ls q (close_emits e))
                       (open_pages w ++ [p])) ++
                  [Call sync_playwright_exit]
              end
          end
      end
  end.

Ltac run_driver :=
  unfold driver, with_sync_playwright, with_, sync_playwright_enter_,
    sync_playwright_exit_, chromium_launch, new_page, open_page, browser_close,
    deliver_all, forget_pages, try_finally, mbind, mret, M_bind, M_ret, bind,
    ret, record, fail_with, with_trace;
  cbn [trace listeners open_pages next_page fs fst snd].

Lemma driver_run (t : target) (e : env) (w : world) :
  (driver t e w).1 = driver_outcome t e /\
  trace (driver t e w).2 = trace w ++ driver_history t w e.
Proof.
  unfold driver_outcome, driver_history, leave. run_driver.
  destruct (enter_fails e) as [x|];
    [cbn [fst snd trace]; split; [reflexivity | reassoc; reflexivity]|].
  cbn [trace listeners open_pages next_page fs fst snd].
  destruct (launch_fails e) as [x|];
    [destruct (exit_fails e); cbn [fst snd trace]; split;
       solve [reflexivity | reassoc; reflexivity]|].
  cbn [trace listeners open_pages next_page fs fst snd].
  destruct (new_page_fails e) as [x|];
    [destruct (exit_fails e); cbn [fst snd trace]; split;
       solve [reflexivity | reassoc; reflexivity]|].
  cbn [trace listeners open_pages next_page fs fst snd].
  rewrite probe_run.
  cbn [trace listeners open_pages next_page fs fst snd].
  destruct (probe_outcome t e) as [[]|x|];
    cbn [trace listeners open_pages next_page fs fst snd];
    try (destruct (close_fails e));
    cbn [trace listeners open_pages next_page fs fst snd];
    try (destruct (exit_fails e));
    cbn [trace listeners open_pages next_page fs fst snd];
    (split; [reflexivity|]); reassoc; rewrite ?app_nil_r; reflexivity.
Qed.

Lemma driver_added (t : target) (e : env) (w : world) :
  added w (driver t e w).2 = driver_history t w e.
Proof. apply added_app, driver_run. Qed.

Lemma probe_never_closes (t : target) (p : page)
    (ls : list (page * (string * listener))) (e : env) :
  List.filter is_close (calls (probe_history t p ls e)) = [].
Proof.
  rewrite probe_calls.
  destruct (goto_result e), (steps_2_3 t e); reflexivity.
Qed.

Lemma probe_outcome_ends (s : script) (e : env) :
  probe_outcome (target_of s) e <> Blocked.
Proof.
  unfold probe_outcome. pose proof (steps_2_3_ends s e) as Hends.
  destruct (steps_2_3 (target_of s) e) as [[]|x|]; try contradiction;
    destruct (shot_fails e); cbn [caught]; try discriminate.
  destruct (is_Exception x); discriminate.
Qed.




(** C6, as stated, fails: when the screenshot call raises, nothing catches
    the exception and the interpreter exits with status 1. *)
Lemma main_droid_exits_1_when_capture_fails :
  exit_status (main_droid capture_fails (boot ∅)).1 = Some 1.
Proof. reflexivity. Qed.

(** C6, amended: the script exits with status 0 whether or not the marker
    was found, and whether navigation and the wait succeeded or raised an
    exception deriving from [Exception], provided that starting
    Playwright, launching the browser, creating the page, taking the
    screenshot, closing the browser and stopping Playwright raise
    nothing. *)
Theorem exit_status_zero_when_nothing_escapes (s : script) (e : env) (w : world) :
  enter_fails e = None -> launch_fails e = None -> new_page_fails e = None ->
  shot_fails e = None -> close_fails e = None -> exit_fails e = None ->
  swallowed (steps_2_3 (target_of s) e) = true ->
  exit_status (main_of s e w).1 = Some 0.
Proof.
  intros He Hl Hn Hs Hc Hx Hsw.
  rewrite main_of_driver. rewrite (proj1 (driver_run _ _ _)).
  unfold driver_outcome, probe_outcome, leave. rewrite He, Hl, Hn, Hs, Hc, Hx.
  destruct (steps_2_3 (target_of s) e) as [[]|x|]; cbn [swallowed] in Hsw.
  - reflexivity.
  - cbn [caught]. rewrite Hsw. reflexivity.
  - discriminate.
Qed.

Lemma exit_status_zero_when_nothing_escapes_witness :
  swallowed (steps_2_3 (target_of Droid) unreachable) = true /\
  exit_status (main_of Droid unreachable (boot ∅)).1 = Some 0.
Proof.
  split; [reflexivity|].
  exact (exit_status_zero_when_nothing_escapes Droid unreachable (boot ∅)
           eq_refl eq_refl eq_refl eq_refl eq_refl eq_refl eq_refl).
Defined.

(** X10: conversely, status 0 is reached in no other way: a run that
    exits with status 0 has started Playwright, launched the browser,
    created the page, taken the screenshot, closed the browser and stopped
    Playwright without any of them raising, and navigation and the wait
    have raised nothing but exceptions deriving from [Exception]. *)
Lemma exit_status_zero_only_if (s : script) (e : env) (w : world) :
  exit_status (main_of s e w).1 = Some 0 ->
  enter_fails e = None /\ launch_fails e = None /\ new_page_fails e = None /\
  shot_fails e = None /\ close_fails e = None /\ exit_fails e = None /\
  swallowed (steps_2_3 (target_of s) e) = true.
Proof.
  rewrite main_of_driver, (proj1 (driver_run _ _ _)).
  unfold driver_outcome, probe_outcome, leave, exit_status. intros H.
  destruct (enter_fails e) as [x1|], (launch_fails e) as [x2|],
    (new_page_fails e) as [x3|], (shot_fails e) as [x4|],
    (close_fails e) as [x5|], (exit_fails e) as [x6|],
    (steps_2_3 (target_of s) e) as [[]|x|];
    cbn [caught swallowed] in *;
    repeat match type of H with
           | context [is_Exception ?y] => destruct (is_Exception y) eqn:?
           end;
    try discriminate; repeat split; assumption.
Qed.

(** ** Lines printed by one call of the routine *)

Lemma stdout_cons_call (c : api_call) (t : list entry) :
  stdout (Call c :: t) = stdout t.
Proof. reflexivity. Qed.

Lemma probe_stdout (t : target) (p : page)
    (ls : list (page * (string * listener))) (e : env) :
  stdout (probe_history t p ls e) =
  dispatch ls p (goto_emits e) ++
  match goto_result e with
  | Return _ => dispatch ls p (wait_emits e)
  | _ => []
  end ++
  match steps_2_3 t e with
  | Raise x => if is_Exception x then ["Error: " +:+ str x] else []
  | _ => []
  end ++
  match steps_2_3 t e with
  | Blocked => []
  | _ => dispatch ls p (shot_emits e)
  end.
Proof.
  unfold probe_history. rewrite !stdout_app, stdout_lines.
  destruct (goto_result e), (steps_2_3 t e) as [[]|x|];
    try destruct (is_Exception x);
    rewrite ?stdout_cons_call, ?stdout_lines; reflexivity.
Qed.

Lemma no_Error_among_observed (evs : list page_event) :
  List.filter (startswith "Error:") (map line_of evs) = [].
Proof.
  induction evs as [|ev evs IH]; [reflexivity|].
  cbn [map List.filter]. rewrite line_of_not_Error. exact IH.
Qed.

Lemma timeout_line_names_5000 (log : string) :
  contains (decimal 5000)
    ("Error: " +:+ str (timeout_error "Page.wait_for_selector" 5000 log)) = true.
Proof. reflexivity. Qed.

Lemma probe_stdout_fresh (t : target) (p : page) (e : env) (w : world) :
  fresh_page w p = true ->
  stdout (added w (probe t p e w).2) =
  map line_of (goto_emits e) ++
  match goto_result e with
  | Return _ => map line_of (wait_emits e)
  | _ => []
  end ++
  match steps_2_3 t e with
  | Raise x => if is_Exception x then ["Error: " +:+ str x] else []
  | _ => []
  end ++
  match steps_2_3 t e with
  | Blocked => []
  | _ => map line_of (shot_emits e)
  end.
Proof.
  intros Hfresh. rewrite probe_added, probe_stdout.
  rewrite !(dispatch_fresh _ _ _ Hfresh). reflexivity.
Qed.

Lemma probe_files_of (s : script) (e : env) (files : gmap string bytes) :
  probe_files (target_of s) e files =
  match shot_fails e with
  | None => <[screenshot_path (target_of s) := viewport_png e]> files
  | Some _ => files
  end.
Proof.
  unfold probe_files. pose proof (steps_2_3_ends s e) as Hends.
  destruct (steps_2_3 (target_of s) e); try contradiction; reflexivity.
Qed.

(** C7, as stated, fails: when the marker never shows and the screenshot
    call raises as well, the [Error:] line is printed but no file is
    produced at [verification.png]. *)
Lemma verify_droid_timeout_without_file :
  marker_late 5000 (marker no_marker_no_capture) = true /\
  stdout (trace (verify_droid 0%nat no_marker_no_capture (boot ∅)).2) =
    ["Console: ready";
     "Error: Page.wait_for_selector: Timeout 5000ms exceeded."] /\
  fs (verify_droid 0%nat no_marker_no_capture (boot ∅)).2 !! "verification.png"
    = None.
Proof. repeat split; reflexivity. Qed.

(** A run in which the wait times out, with a console message and a call
    log of several lines. *)
Definition slow_page : env :=
  {| enter_fails := None; launch_fails := None; new_page_fails := None;
     goto_emits :=
       [console {| text := "booting" +:+ String newline "still booting" |}];
     goto_fails := None;
     wait_emits := []; marker := NeverVisible;
     wait_call_log :=
       String newline "Call log:" +:+
       String newline "  - waiting for text=Droid to be visible";
     shot_emits := []; shot_fails := None;
     viewport_png := "viewport"; full_page_png := "full page";
     close_emits := []; close_fails := None; exit_fails := None |}.

(** C7, amended: in every run on a new page in which navigation returns
    and the marker is not visible when the 5000 ms have passed, the
    routine prints exactly one text that starts with "Error:", and its
    first line names the bound of 5000 ms.  If moreover no console
    message, page error or call log of the timeout has a later line that
    itself starts with "Error:", that first line is the only line of
    standard output that starts with "Error:".  The screenshot call is
    still made; the file is produced when that call succeeds. *)
Theorem one_Error_line_on_timeout (s : script) (p : page) (e : env) (w : world) :
  fresh_page w p = true ->
  goto_result e = Return tt ->
  marker_late 5000 (marker e) = true ->
  let w' := (verify_of s p e w).2 in
  let path := screenshot_path (target_of s) in
  let text :=
    "Error: " +:+
    str (timeout_error "Page.wait_for_selector" 5000 (wait_call_log e)) in
  List.filter (startswith "Error:") (stdout (added w w')) = [text] /\
  (exists first rest,
     text_lines text = first :: rest /\
     contains (decimal 5000) first = true /\
     (forallb quiet (goto_emits e ++ wait_emits e ++ shot_emits e) = true ->
      Error_free (tl (text_lines (wait_call_log e))) = true ->
      List.filter (startswith "Error:")
        (lines (written (stdout (added w w')))) = [first])) /\
  In (screenshot_call p (Some path) None) (calls (added w w')) /\
  fs w' =
    match shot_fails e with
    | None => <[path := viewport_png e]> (fs w)
    | Some _ => fs w
    end.
Proof.
  intros Hfresh Hgoto Hlate. cbn zeta. rewrite verify_of_probe.
  assert (Hsteps : steps_2_3 (target_of s) e =
                   Raise (timeout_error "Page.wait_for_selector" 5000
                            (wait_call_log e))).
  { unfold steps_2_3. rewrite Hgoto, timeout_of.
    apply wait_result_late; [lia | exact Hlate]. }
  assert (Hout : stdout (added w (probe (target_of s) p e w).2) =
                 map line_of (goto_emits e) ++ map line_of (wait_emits e) ++
                 ["Error: " +:+
                  str (timeout_error "Page.wait_for_selector" 5000
                         (wait_call_log e))] ++
                 map line_of (shot_emits e)).
  { rewrite (probe_stdout_fresh _ _ _ _ Hfresh), Hgoto, Hsteps. reflexivity. }
  split; [|split; [|split]].
  - rewrite Hout, !List.filter_app, !no_Error_among_observed. reflexivity.
  - destruct (text_lines (wait_call_log e)) as [|l0 ls0] eqn:Hlog;
      [now apply text_lines_nonempty in Hlog|].
    exists ("Error: Page.wait_for_selector: Timeout 5000ms exceeded." +:+ l0), ls0.
    assert (Htext : text_lines
                      ("Error: " +:+
                       str (timeout_error "Page.wait_for_selector" 5000
                              (wait_call_log e))) =
                    ("Error: Page.wait_for_selector: Timeout 5000ms exceeded."
                     +:+ l0) :: ls0).
    { change ("Error: " +:+
              str (timeout_error "Page.wait_for_selector" 5000 (wait_call_log e)))
        with ("Error: Page.wait_for_selector: Timeout 5000ms exceeded." +:+
              wait_call_log e).
      now apply text_lines_prepend. }
    split; [exact Htext|]. split; [reflexivity|].
    intros Hquiet Hlater. cbn [tl] in Hlater.
    rewrite !forallb_app in Hquiet.
    apply andb_true_iff in Hquiet as [Hq1 Hquiet].
    apply andb_true_iff in Hquiet as [Hq2 Hq3].
    rewrite Hout, lines_written, !flat_map_app, !List.filter_app.
    rewrite !quiet_events_filter by assumption.
    cbn [flat_map]. rewrite app_nil_r, Htext. cbn [List.filter app].
    rewrite app_nil_r, (Error_free_filter _ Hlater). reflexivity.
  - rewrite probe_added, probe_calls, Hgoto, Hsteps.
    apply in_or_app. right. apply in_or_app. right. now left.
  - rewrite probe_run. cbn [snd fs]. apply probe_files_of.
Qed.

Lemma one_Error_line_on_timeout_witness :
  fresh_page (boot ∅) 0%nat = true /\
  goto_result slow_page = Return tt /\
  marker_late 5000 (marker slow_page) = true /\
  forallb quiet (goto_emits slow_page ++ wait_emits slow_page ++
                 shot_emits slow_page) = true /\
  Error_free (tl (text_lines (wait_call_log slow_page))) = true /\
  List.filter (startswith "Error:")
    (lines (written (stdout (added (boot ∅)
                               (verify_of Droid 0%nat slow_page (boot ∅)).2)))) =
  ["Error: Page.wait_for_selector: Timeout 5000ms exceeded."].
Proof.
  repeat (split; [reflexivity|]).
  destruct (one_Error_line_on_timeout Droid 0%nat slow_page (boot ∅)
              eq_refl eq_refl eq_refl)
    as (_ & (first & rest & Htext & _ & Hstream) & _).
  rewrite (Hstream eq_refl eq_refl).
  vm_compute in Htext. now injection Htext as <- _.
Defined.

(** A run in which nothing fails, but the page logs a message whose
    second line starts with "Error:". *)
Definition noisy_page : env :=
  {| enter_fails := None; launch_fails := None; new_page_fails := None;
     goto_emits :=
       [console {| text := "boot" +:+ String newline "Error: widget failed" |}];
     goto_fails := None;
     wait_emits := []; marker := VisibleAfter 1200; wait_call_log := "";
     shot_emits := []; shot_fails := None;
     viewport_png := "viewport"; full_page_png := "full page";
     close_emits := []; close_fails := None; exit_fails := None |}.

(** Without the proviso the stream can hold such a line that the routine
    did not print as its "Error: " text: here the run ends normally, the
    routine prints no "Error: " text, and yet one line of standard output
    starts with "Error:". *)
Lemma console_message_can_forge_an_Error_line :
  (verify_droid 0%nat noisy_page (boot ∅)).1 = Return tt /\
  List.filter (startswith "Error:")
    (stdout (added (boot ∅) (verify_droid 0%nat noisy_page (boot ∅)).2)) = [] /\
  List.filter (startswith "Error:")
    (lines (written (stdout (added (boot ∅)
                               (verify_droid 0%nat noisy_page (boot ∅)).2)))) =
  ["Error: widget failed"] /\
  forallb quiet (goto_emits noisy_page) = false.
Proof. repeat split; reflexivity. Qed.

(** ** The observers *)

Lemma driver_stdout_close (t : target) (e : env) (w : world) (ev : page_event) :
  enter_fails e = None -> launch_fails e = None -> new_page_fails e = None ->
  probe_outcome t e <> Blocked ->
  In ev (close_emits e) ->
  In (line_of ev) (stdout (driver_history t w e)).
Proof.
  intros He Hl Hn Hends Hev. unfold driver_history. rewrite He, Hl, Hn.
  rewrite !stdout_cons_call, stdout_app. apply in_or_app. right.
  destruct (probe_outcome t e); try contradiction;
    rewrite stdout_cons_call, stdout_app, stdout_lines;
    apply in_or_app; left; apply in_flat_map; exists (next_page w);
    (split; [apply in_or_app; right; now left | now apply dispatch_forwards]).
Qed.

(** C8: the routine registers its two observers first, before it
    navigates, and never removes them.  Every console message the page
    emits while the script is in [goto], [wait_for_selector] or
    [screenshot] is printed as "Console: " followed by its text, and every
    uncaught page error as "Page Error: " followed by its message; the
    same holds for what the page emits while the browser closes. *)
Theorem observers_forward_every_event (s : script) (p : page) (e : env) (w : world) :
  let w' := (verify_of s p e w).2 in
  (forall msg, line_of (console msg) = "Console: " +:+ text msg) /\
  (forall err, line_of (pageerror err) = "Page Error: " +:+ str err) /\
  (exists rest,
     added w w' =
     Call (on_call p "console") :: Call (on_call p "pageerror") ::
     Call (goto_call p (url (target_of s))) :: rest) /\
  listeners w' = listeners w ++ observers p /\
  Forall (fun ev => In (line_of ev) (stdout (added w w')))
    (goto_emits e ++
     match goto_result e with Return _ => wait_emits e | _ => [] end ++
     shot_emits e) /\
  match enter_fails e, launch_fails e, new_page_fails e with
  | None, None, None =>
      Forall (fun ev => In (line_of ev) (stdout (added w (main_of s e w).2)))
        (close_emits e)
  | _, _, _ => True
  end.
Proof.
  cbn zeta. rewrite verify_of_probe, probe_added.
  split; [reflexivity|]. split; [reflexivity|]. split; [|split; [|split]].
  - unfold probe_history. eexists. reflexivity.
  - rewrite probe_run. reflexivity.
  - rewrite probe_stdout. pose proof (steps_2_3_ends s e) as Hends.
    apply List.Forall_forall. intros ev Hev.
    apply in_app_or in Hev as [Hev|Hev]; [|apply in_app_or in Hev as [Hev|Hev]].
    + apply in_or_app. left. now apply dispatch_forwards.
    + apply in_or_app. right. apply in_or_app. left.
      destruct (goto_result e); [now apply dispatch_forwards | destruct Hev ..].
    + do 3 (apply in_or_app; right).
      destruct (steps_2_3 (target_of s) e); try contradiction;
        now apply dispatch_forwards.
  - destruct (enter_fails e) eqn:He; [exact I|].
    destruct (launch_fails e) eqn:Hl; [exact I|].
    destruct (new_page_fails e) eqn:Hn; [exact I|].
    apply List.Forall_forall. intros ev Hev.
    rewrite main_of_driver, driver_added.
    apply driver_stdout_close; auto using probe_outcome_ends.
Qed.

(** ** Two runs in succession *)

(** C9, as stated, fails: against a reachable target that shows the
    marker, with a screenshot call that raises both times, the second run
    does not end without error and no file is written at the path. *)
Lemma second_run_raises_when_capture_fails :
  goto_result capture_fails = Return tt /\
  (verify_droid 1%nat capture_fails
     (verify_droid 0%nat capture_fails (boot ∅)).2).1 = Raise target_closed /\
  fs (verify_droid 1%nat capture_fails
        (verify_droid 0%nat capture_fails (boot ∅)).2).2 !! "verification.png"
  = None.
Proof. repeat split; reflexivity. Qed.

(** C9, amended: take two runs of the routine against the same target,
    the page and the browser behaving the same way both times, each run
    on a page of its own (as [new_page] supplies), the second starting
    with the files the first has left.  Both print the same texts in the
    same order, so that standard output holds the same lines, in the same
    number and with the same prefixes; both make their screenshot call
    with the same path; both end the same way.  When the screenshot call
    succeeds, the first run leaves its capture at that path and the
    second writes its capture over it, at the same path; and when
    moreover navigation and the wait raise nothing but exceptions
    deriving from [Exception], both runs end without error. *)
Theorem two_runs_in_succession
    (s : script) (e : env) (w1 w2 : world) (p1 p2 : page) :
  fresh_page w1 p1 = true ->
  fresh_page w2 p2 = true ->
  fs w2 = fs (verify_of s p1 e w1).2 ->
  let r1 := verify_of s p1 e w1 in
  let r2 := verify_of s p2 e w2 in
  let path := screenshot_path (target_of s) in
  stdout (added w2 r2.2) = stdout (added w1 r1.2) /\
  lines (written (stdout (added w2 r2.2))) =
    lines (written (stdout (added w1 r1.2))) /\
  List.filter is_screenshot (calls (added w1 r1.2)) =
    [screenshot_call p1 (Some path) None] /\
  List.filter is_screenshot (calls (added w2 r2.2)) =
    [screenshot_call p2 (Some path) None] /\
  r2.1 = r1.1 /\
  (shot_fails e = None ->
   fs r1.2 = <[path := viewport_png e]> (fs w1) /\
   fs r2.2 = <[path := viewport_png e]> (fs r1.2) /\
   fs r2.2 !! path = Some (viewport_png e) /\
   (swallowed (steps_2_3 (target_of s) e) = true ->
    r1.1 = Return tt /\ r2.1 = Return tt)).
Proof.
  intros Hf1 Hf2 Hfs. cbn zeta. rewrite verify_of_probe in *.
  assert (Hout : stdout (added w2 (probe (target_of s) p2 e w2).2) =
                 stdout (added w1 (probe (target_of s) p1 e w1).2)).
  { rewrite (probe_stdout_fresh _ _ _ _ Hf1), (probe_stdout_fresh _ _ _ _ Hf2).
    reflexivity. }
  pose proof (steps_2_3_ends s e) as Hends.
  split; [exact Hout|]. split; [now rewrite Hout|].
  rewrite !probe_added, !probe_calls.
  split; [|split].
  - destruct (goto_result e), (steps_2_3 (target_of s) e);
      try contradiction; reflexivity.
  - destruct (goto_result e), (steps_2_3 (target_of s) e);
      try contradiction; reflexivity.
  - rewrite !probe_run in *. cbn [fst snd fs] in *.
    split; [reflexivity|]. intros Hshot.
    rewrite Hfs, !probe_files_of, Hshot.
    split; [reflexivity|]. split; [reflexivity|].
    split; [apply lookup_insert_eq|].
    intros Hsw. unfold probe_outcome. rewrite Hshot.
    destruct (steps_2_3 (target_of s) e) as [[]|x|]; cbn [swallowed] in Hsw;
      try discriminate; cbn [caught]; rewrite ?Hsw; split; reflexivity.
Qed.

Lemma two_runs_in_succession_witness :
  fresh_page (boot ∅) 0%nat = true /\
  fresh_page (verify_of Droid 0%nat unreachable (boot ∅)).2 1%nat = true /\
  shot_fails unreachable = None /\
  swallowed (steps_2_3 (target_of Droid) unreachable) = true /\
  (verify_of Droid 1%nat unreachable
     (verify_of Droid 0%nat unreachable (boot ∅)).2).1 = Return tt /\
  fs (verify_of Droid 1%nat unreachable
        (verify_of Droid 0%nat unreachable (boot ∅)).2).2 !! "verification.png"
  = Some "viewport".
Proof.
  do 4 (split; [reflexivity|]).
  destruct (two_runs_in_succession Droid unreachable (boot ∅)
              (verify_of Droid 0%nat unreachable (boot ∅)).2 0%nat 1%nat
              eq_refl eq_refl eq_refl)
    as (_ & _ & _ & _ & _ & Hshot).
  destruct (Hshot eq_refl) as (_ & _ & Hfile & Hend).
  split; [exact (proj2 (Hend eq_refl)) | exact Hfile].
Defined.

(** On a page object that is passed to the routine a second time the
    observers are registered twice, and each event is then printed
    twice; the scripts never do that, each run creates its page. *)
Lemma reused_page_prints_twice :
  stdout (added (boot ∅) (verify_droid 0%nat healthy (boot ∅)).2) =
    ["Console: ready"] /\
  stdout (added (verify_droid 0%nat healthy (boot ∅)).2
            (verify_droid 0%nat healthy (verify_droid 0%nat healthy (boot ∅)).2).2) =
    ["Console: ready"; "Console: ready"].
Proof. split; reflexivity. Qed.

(** ** The bound of the wait *)

(** C10: in both scripts, once navigation has returned, the routine calls
    [wait_for_selector] with a bound of 5000 ms.  If the marker is not
    visible when 5000 ms have passed, the wait raises [TimeoutError] with
    the message for 5000 ms, which is the one "Error:" line of the run; if
    the marker is visible by then, no "Error:" line is printed. *)
Theorem wait_is_bounded_by_5000 (s : script) (p : page) (e : env) (w : world) :
  fresh_page w p = true ->
  goto_result e = Return tt ->
  let w' := (verify_of s p e w).2 in
  let late := timeout_error "Page.wait_for_selector" 5000 (wait_call_log e) in
  In (wait_for_selector_call p (selector (target_of s)) (Some 5000))
    (calls (added w w')) /\
  class_of late = TimeoutError /\
  (marker_late 5000 (marker e) = true ->
   wait_result (Some 5000) e = Raise late /\
   List.filter (startswith "Error:") (stdout (added w w')) =
     ["Error: " +:+ str late]) /\
  (forall d, marker e = VisibleAfter d -> d <= 5000 ->
   wait_result (Some 5000) e = Return tt /\
   List.filter (startswith "Error:") (stdout (added w w')) = []).
Proof.
  intros Hfresh Hgoto. cbn zeta. rewrite verify_of_probe.
  rewrite (probe_stdout_fresh _ _ _ _ Hfresh), probe_added, probe_calls.
  unfold steps_2_3. rewrite Hgoto, !timeout_of.
  split; [|split; [reflexivity|split]].
  - apply in_or_app. right. now left.
  - intros Hlate.
    rewrite (wait_result_late 5000 e) by (lia || exact Hlate).
    split; [reflexivity|].
    rewrite !List.filter_app, !no_Error_among_observed. reflexivity.
  - intros d Hd Hle. rewrite (wait_result_in_time 5000 d e Hd Hle).
    split; [reflexivity|].
    rewrite !List.filter_app, !no_Error_among_observed. reflexivity.
Qed.

Lemma wait_is_bounded_by_5000_witness :
  fresh_page (boot ∅) 0%nat = true /\
  goto_result no_marker_no_capture = Return tt /\
  In (wait_for_selector_call 0%nat (selector (target_of Example)) (Some 5000))
    (calls (added (boot ∅)
              (verify_of Example 0%nat no_marker_no_capture (boot ∅)).2)).
Proof.
  split; [reflexivity|]. split; [reflexivity|].
  exact (proj1 (wait_is_bounded_by_5000 Example 0%nat no_marker_no_capture
                  (boot ∅) eq_refl eq_refl)).
Defined.

(** ** Further properties of the scripts *)

(** The files a whole run leaves: those of the routine when the page could
    be created, the ones it found otherwise. *)
Lemma driver_files (t : target) (e : env) (w : world) :
  fs (driver t e w).2 =
  match enter_fails e, launch_fails e, new_page_fails e with
  | None, None, None => probe_files t e (fs w)
  | _, _, _ => fs w
  end.
Proof.
  run_driver.
  destruct (enter_fails e) as [x|]; [reflexivity|].
  cbn [trace listeners open_pages next_page fs fst snd].
  destruct (launch_fails e) as [x|]; [destruct (exit_fails e); reflexivity|].
  cbn [trace listeners open_pages next_page fs fst snd].
  destruct (new_page_fails e) as [x|]; [destruct (exit_fails e); reflexivity|].
  cbn [trace listeners open_pages next_page fs fst snd].
  rewrite probe_run.
  cbn [trace listeners open_pages next_page fs fst snd].
  destruct (probe_outcome t e) as [[]|x|];
    cbn [trace listeners open_pages next_page fs fst snd];
    try (destruct (close_fails e));
    cbn [trace listeners open_pages next_page fs fst snd];
    try (destruct (exit_fails e));
    reflexivity.
Qed.

Lemma driver_calls (s : script) (e : env) (w : world) :
  calls (driver_history (target_of s) w e) =
  sync_playwright_enter ::
  match enter_fails e with
  | Some _ => []
  | None =>
      chromium_launch_call ::
      match launch_fails e with
      | Some _ => [sync_playwright_exit]
      | None =>
          new_page_call ::
          match new_page_fails e with
          | Some _ => [sync_playwright_exit]
          | None =>
              calls (probe_history (target_of s) (next_page w)
                       (listeners w ++ observers (next_page w)) e) ++
              [close_call; sync_playwright_exit]
          end
      end
  end.
Proof.
  unfold driver_history. rewrite calls_cons_call. f_equal.
  destruct (enter_fails e); [reflexivity|]. rewrite calls_cons_call. f_equal.
  destruct (launch_fails e); [reflexivity|]. rewrite calls_cons_call. f_equal.
  destruct (new_page_fails e); [reflexivity|]. rewrite calls_app. f_equal.
  pose proof (probe_outcome_ends s e) as Hends.
  destruct (probe_outcome (target_of s) e); try contradiction;
    rewrite calls_cons_call, calls_app, calls_lines; reflexivity.
Qed.

(** X1: when [page.goto] raises, whatever the exception, the routine does
    not call [wait_for_selector]: after the two registrations and the
    navigation its only other call is the screenshot. *)
Theorem failed_navigation_skips_the_wait
    (s : script) (p : page) (e : env) (w : world) (x : exn) :
  goto_fails e = Some x ->
  calls (added w (verify_of s p e w).2) =
  [on_call p "console"; on_call p "pageerror";
   goto_call p (url (target_of s));
   screenshot_call p (Some (screenshot_path (target_of s))) None].
Proof.
  intros Hx. rewrite verify_of_probe, probe_added, probe_calls.
  unfold steps_2_3, goto_result. rewrite Hx. reflexivity.
Qed.

Lemma failed_navigation_skips_the_wait_witness :
  goto_fails unreachable = Some connection_refused /\
  calls (added (boot ∅) (verify_of Example 0%nat unreachable (boot ∅)).2) =
  [on_call 0%nat "console"; on_call 0%nat "pageerror";
   goto_call 0%nat "http://localhost:5173";
   screenshot_call 0%nat (Some "example.png") None].
Proof.
  split; [reflexivity|].
  exact (failed_navigation_skips_the_wait Example 0%nat unreachable (boot ∅)
           connection_refused eq_refl).
Defined.

(** X2: on a page nothing else listens to, the lines a call of the routine
    prints are exactly these, in this order: one line per event emitted
    during navigation; if navigation returned, one line per event emitted
    during the wait; the "Error: " line if navigation or the wait raised
    an exception deriving from [Exception]; one line per event emitted
    during the capture.  Nothing is printed for a successful step, nor for
    a failing capture. *)
Theorem log_of_a_run (s : script) (p : page) (e : env) (w : world) :
  fresh_page w p = true ->
  stdout (added w (verify_of s p e w).2) =
  map line_of (goto_emits e) ++
  match goto_result e with
  | Return _ => map line_of (wait_emits e)
  | _ => []
  end ++
  match steps_2_3 (target_of s) e with
  | Raise x => if is_Exception x then ["Error: " +:+ str x] else []
  | _ => []
  end ++
  map line_of (shot_emits e).
Proof.
  intros Hfresh. rewrite verify_of_probe, (probe_stdout_fresh _ _ _ _ Hfresh).
  pose proof (steps_2_3_ends s e) as Hends.
  destruct (steps_2_3 (target_of s) e); try contradiction; reflexivity.
Qed.

Lemma log_of_a_run_witness :
  fresh_page (boot ∅) 0%nat = true /\
  stdout (added (boot ∅) (verify_of Droid 0%nat unreachable (boot ∅)).2) =
  ["Console: ready";
   "Error: Page.goto: net::ERR_CONNECTION_REFUSED at http://localhost:3000/"].
Proof.
  split; [reflexivity|].
  exact (log_of_a_run Droid 0%nat unreachable (boot ∅) eq_refl).
Defined.

(** X3: when the page can be created, the calls of a whole run are, in
    this order: start Playwright, launch, new page, the two
    registrations, navigation, the wait (only if navigation returned),
    the screenshot, [browser.close()], stop Playwright.  So the routine is
    run exactly once, on the page just created, and the screenshot is
    always taken before the browser is closed. *)
Theorem calls_of_a_whole_run (s : script) (e : env) (w : world) :
  enter_fails e = None -> launch_fails e = None -> new_page_fails e = None ->
  calls (added w (main_of s e w).2) =
  [sync_playwright_enter; chromium_launch_call; new_page_call;
   on_call (next_page w) "console"; on_call (next_page w) "pageerror";
   goto_call (next_page w) (url (target_of s))] ++
  match goto_result e with
  | Return _ =>
      [wait_for_selector_call (next_page w) (selector (target_of s)) (Some 5000)]
  | _ => []
  end ++
  [screenshot_call (next_page w) (Some (screenshot_path (target_of s))) None;
   close_call; sync_playwright_exit].
Proof.
  intros He Hl Hn. rewrite main_of_driver, driver_added, driver_calls.
  rewrite He, Hl, Hn, probe_calls, timeout_of.
  pose proof (steps_2_3_ends s e) as Hends.
  destruct (goto_result e), (steps_2_3 (target_of s) e);
    try contradiction; reflexivity.
Qed.

Lemma calls_of_a_whole_run_witness :
  enter_fails healthy = None /\ launch_fails healthy = None /\
  new_page_fails healthy = None /\
  calls (added (boot ∅) (main_of Droid healthy (boot ∅)).2) =
  [sync_playwright_enter; chromium_launch_call; new_page_call;
   on_call 0%nat "console"; on_call 0%nat "pageerror";
   goto_call 0%nat "http://localhost:3000";
   wait_for_selector_call 0%nat "text=Droid" (Some 5000);
   screenshot_call 0%nat (Some "verification.png") None;
   close_call; sync_playwright_exit].
Proof.
  repeat (split; [reflexivity|]).
  exact (calls_of_a_whole_run Droid healthy (boot ∅) eq_refl eq_refl eq_refl).
Defined.

(** The page of the run could be created. *)
Definition page_created (e : env) : bool :=
  match enter_fails e, launch_fails e, new_page_fails e with
  | None, None, None => true
  | _, _, _ => false
  end.

(** X4: when starting Playwright, launching the browser or creating the
    page raises, the routine is not run at all: the run prints nothing,
    changes no file, makes no call on a page, and does not end normally.
    [__exit__] is called if and only if [__enter__] had returned. *)
Theorem failed_setup_runs_no_probe (s : script) (e : env) (w : world) :
  page_created e = false ->
  let r := main_of s e w in
  stdout (added w r.2) = [] /\
  fs r.2 = fs w /\
  calls (added w r.2) =
    sync_playwright_enter ::
    match enter_fails e with
    | Some _ => []
    | None =>
        chromium_launch_call ::
        match launch_fails e with Some _ => [] | None => [new_page_call] end ++
        [sync_playwright_exit]
    end /\
  returns r.1 = false.
Proof.
  unfold page_created. intros Hc. cbn zeta.
  rewrite main_of_driver, driver_added, driver_files, driver_calls,
    (proj1 (driver_run _ _ _)).
  unfold driver_history, driver_outcome, leave.
  destruct (enter_fails e); [repeat split|].
  destruct (launch_fails e);
    [destruct (exit_fails e); repeat split|].
  destruct (new_page_fails e); [|discriminate].
  destruct (exit_fails e); repeat split.
Qed.

Lemma failed_setup_runs_no_probe_witness :
  page_created no_page = false /\
  calls (added (boot ∅) (main_of Droid no_page (boot ∅)).2) =
  [sync_playwright_enter; chromium_launch_call; new_page_call;
   sync_playwright_exit].
Proof.
  split; [reflexivity|].
  exact (proj1 (proj2 (proj2
           (failed_setup_runs_no_probe Droid no_page (boot ∅) eq_refl)))).
Defined.

(** The user interrupts navigation, and then the capture fails too. *)
Definition interrupted_then_capture_fails : env :=
  run_where None (Some interrupted) (Some target_closed) NeverVisible.

(** X5: once the page exists, the exception that ends the run is that of
    the last cleanup step that raised: stopping Playwright before closing
    the browser, closing the browser before the screenshot.  An exception
    raised in a [finally] block replaces the pending one, so a failing
    screenshot hides a [KeyboardInterrupt] that was on its way out.  With
    no failing cleanup step the run ends as navigation and the wait did,
    exceptions deriving from [Exception] having been swallowed. *)
Theorem last_failing_cleanup_wins (s : script) (e : env) (w : world) :
  page_created e = true ->
  (main_of s e w).1 =
  match exit_fails e, close_fails e, shot_fails e with
  | Some y, _, _ => Raise y
  | None, Some y, _ => Raise y
  | None, None, Some y => Raise y
  | None, None, None =>
      match steps_2_3 (target_of s) e with
      | Raise x => if is_Exception x then Return tt else Raise x
      | r => r
      end
  end.
Proof.
  unfold page_created. intros Hc.
  rewrite main_of_driver, (proj1 (driver_run _ _ _)).
  unfold driver_outcome, probe_outcome, leave, caught.
  pose proof (steps_2_3_ends s e) as Hends.
  destruct (enter_fails e), (launch_fails e), (new_page_fails e);
    try discriminate.
  destruct (steps_2_3 (target_of s) e) as [[]|x|]; try contradiction;
    try destruct (is_Exception x);
    destruct (shot_fails e), (close_fails e), (exit_fails e); reflexivity.
Qed.

Lemma last_failing_cleanup_wins_witness :
  page_created interrupted_then_capture_fails = true /\
  (main_of Droid interrupted_then_capture_fails (boot ∅)).1 =
  Raise target_closed.
Proof.
  split; [reflexivity|].
  exact (last_failing_cleanup_wins Droid interrupted_then_capture_fails
           (boot ∅) eq_refl).
Defined.

(** X6: a whole run changes no file other than the one at its screenshot
    path; and that one holds the new capture only if the page was created
    and the screenshot call succeeded: otherwise it is left as it was, so
    that a screenshot of an earlier run stays in place. *)
Theorem files_after_a_whole_run (s : script) (e : env) (w : world) :
  let w' := (main_of s e w).2 in
  let path := screenshot_path (target_of s) in
  (forall f, f <> path -> fs w' !! f = fs w !! f) /\
  fs w' !! path =
    match page_created e, shot_fails e with
    | true, None => Some (viewport_png e)
    | _, _ => fs w !! path
    end.
Proof.
  cbn zeta. rewrite main_of_driver, driver_files. unfold page_created.
  destruct (enter_fails e), (launch_fails e), (new_page_fails e);
    try (split; [intros f Hf|]; reflexivity).
  rewrite probe_files_of.
  destruct (shot_fails e); [split; [intros f Hf|]; reflexivity|].
  split.
  - intros f Hf. apply lookup_insert_ne. congruence.
  - apply lookup_insert_eq.
Qed.

(** X7: the two scripts write to different paths, so they do not disturb
    each other: run one after the other, in either order, they leave the
    same files. *)
Theorem scripts_commute_on_files (e1 e2 : env) (files : gmap string bytes) :
  fs (main_example e2 (boot (fs (main_droid e1 (boot files)).2))).2 =
  fs (main_droid e1 (boot (fs (main_example e2 (boot files)).2))).2.
Proof.
  change main_example with (main_of Example).
  change main_droid with (main_of Droid).
  rewrite !main_of_driver, !driver_files, !probe_files_of. cbn [fs boot].
  destruct (enter_fails e1), (launch_fails e1), (new_page_fails e1),
    (shot_fails e1), (enter_fails e2), (launch_fails e2), (new_page_fails e2),
    (shot_fails e2); try reflexivity.
  apply insert_insert_ne. discriminate.
Qed.

(** Each event once per registration: the lines printed when the
    routine's observers are registered twice on a page. *)
Definition twice (evs : list page_event) : list string :=
  flat_map (fun ev => [line_of ev; line_of ev]) evs.

Lemma dispatch_twice (ls : list (page * (string * listener))) p evs :
  forallb (fun r => negb (bool_decide (r.1 = p))) ls = true ->
  dispatch ((ls ++ observers p) ++ observers p) p evs = twice evs.
Proof.
  intros H. unfold dispatch, twice.
  induction evs as [|ev evs IH]; [reflexivity|].
  cbn [flat_map]. rewrite IH, !fire_app, !fire_observers, (fire_fresh _ _ _ H).
  reflexivity.
Qed.

(** X8: the routine registers its observers at every call and never
    removes them.  If it is called a second time with the same page
    object, that call prints every console message and page error twice,
    while the "Error: " line is still printed once. *)
Theorem second_call_on_same_page_prints_twice
    (s : script) (p : page) (e : env) (w : world) :
  fresh_page w p = true ->
  let w1 := (verify_of s p e w).2 in
  let w2 := (verify_of s p e w1).2 in
  listeners w2 = (listeners w ++ observers p) ++ observers p /\
  stdout (added w1 w2) =
  twice (goto_emits e) ++
  match goto_result e with
  | Return _ => twice (wait_emits e)
  | _ => []
  end ++
  match steps_2_3 (target_of s) e with
  | Raise x => if is_Exception x then ["Error: " +:+ str x] else []
  | _ => []
  end ++
  twice (shot_emits e).
Proof.
  intros Hfresh. cbn zeta. rewrite verify_of_probe.
  rewrite probe_added, probe_stdout.
  rewrite !(probe_run _ p e w). cbn [snd listeners].
  split; [rewrite probe_run; reflexivity|].
  rewrite !(dispatch_twice _ _ _ Hfresh).
  pose proof (steps_2_3_ends s e) as Hends.
  destruct (steps_2_3 (target_of s) e); try contradiction; reflexivity.
Qed.

Lemma second_call_on_same_page_prints_twice_witness :
  fresh_page (boot ∅) 0%nat = true /\
  stdout (added (verify_of Droid 0%nat unreachable (boot ∅)).2
            (verify_of Droid 0%nat unreachable
               (verify_of Droid 0%nat unreachable (boot ∅)).2).2) =
  ["Console: ready"; "Console: ready";
   "Error: Page.goto: net::ERR_CONNECTION_REFUSED at http://localhost:3000/"].
Proof.
  split; [reflexivity|].
  exact (proj2 (second_call_on_same_page_prints_twice Droid 0%nat unreachable
                  (boot ∅) eq_refl)).
Defined.

Lemma dispatch_own (p : page) (evs : list page_event) :
  dispatch (observers p) p evs = map line_of evs.
Proof. exact (dispatch_fresh [] p evs eq_refl). Qed.

(** X9: take a run of a script from a fresh interpreter in which no
    console message or page error, and no message of an exception raised
    by navigation or the wait, has a later line that itself starts with
    "Error:".  Standard output then holds at most one line that starts
    with "Error:": the first line of the "Error: " text, when the page was
    created and navigation or the wait raised an exception deriving from
    [Exception].  A failure of the setup, of the screenshot, of
    [browser.close()] or of stopping Playwright puts no such line on
    standard output: the absence of an "Error:" line does not tell that
    the run went well. *)
Theorem Error_line_of_a_whole_run
    (s : script) (e : env) (files : gmap string bytes) :
  forallb quiet (goto_emits e ++ wait_emits e ++ shot_emits e ++ close_emits e)
    = true ->
  (forall x, steps_2_3 (target_of s) e = Raise x ->
             Error_free (tl (text_lines ("Error: " +:+ str x))) = true) ->
  List.filter (startswith "Error:")
    (lines (written (stdout (trace (main_of s e (boot files)).2)))) =
  match page_created e, steps_2_3 (target_of s) e with
  | true, Raise x =>
      if is_Exception x then firstn 1 (text_lines ("Error: " +:+ str x)) else []
  | _, _ => []
  end.
Proof.
  intros Hquiet Hmsg.
  rewrite !forallb_app in Hquiet.
  apply andb_true_iff in Hquiet as [Hq1 Hquiet].
  apply andb_true_iff in Hquiet as [Hq2 Hquiet].
  apply andb_true_iff in Hquiet as [Hq3 Hq4].
  rewrite main_of_driver, (proj2 (driver_run _ _ _)), lines_written.
  unfold driver_history, page_created.
  cbn [boot trace listeners open_pages next_page app].
  rewrite stdout_cons_call.
  destruct (enter_fails e); [reflexivity|]. rewrite stdout_cons_call.
  destruct (launch_fails e); [reflexivity|]. rewrite stdout_cons_call.
  destruct (new_page_fails e); [reflexivity|].
  rewrite stdout_app, probe_stdout, !dispatch_own.
  pose proof (probe_outcome_ends s e) as Hends.
  pose proof (steps_2_3_ends s e) as Hs.
  assert (Hclose : forall c,
            List.filter (startswith "Error:")
              (flat_map text_lines
                 (stdout (Call c ::
                          map Stdout
                            (flat_map
                               (fun q => dispatch (observers 0%nat) q (close_emits e))
                               [0%nat]) ++
                          [Call sync_playwright_exit]))) = []).
  { intros c. rewrite stdout_cons_call, stdout_app, stdout_lines.
    cbn [flat_map stdout]. rewrite !app_nil_r, dispatch_own.
    now apply quiet_events_filter. }
  destruct (probe_outcome (target_of s) e); try contradiction;
    rewrite !flat_map_app, !List.filter_app, Hclose, app_nil_r;
    rewrite !quiet_events_filter by assumption;
    (destruct (goto_result e);
     rewrite ?quiet_events_filter by assumption);
    (destruct (steps_2_3 (target_of s) e) as [[]|x|] eqn:Hx;
     try contradiction; rewrite ?quiet_events_filter by assumption;
     try reflexivity);
    (destruct (is_Exception x); [|reflexivity]);
    specialize (Hmsg x eq_refl);
    cbn [flat_map]; rewrite !app_nil_r;
    pose proof (text_lines_nonempty ("Error: " +:+ str x)) as Hne;
    (destruct (text_lines (str x)) as [|l0 ls0] eqn:Hm;
     [now apply text_lines_nonempty in Hm|]);
    rewrite (Error_text_lines _ _ _ Hm) in *;
    cbn [List.tl List.filter firstn app] in *;
    rewrite (Error_free_filter _ Hmsg); reflexivity.
Qed.

Lemma Error_line_of_a_whole_run_witness :
  forallb quiet (goto_emits slow_page ++ wait_emits slow_page ++
                 shot_emits slow_page ++ close_emits slow_page) = true /\
  List.filter (startswith "Error:")
    (lines (written (stdout (trace (main_of Droid slow_page (boot ∅)).2)))) =
  ["Error: Page.wait_for_selector: Timeout 5000ms exceeded."].
Proof.
  split; [reflexivity|].
  rewrite (Error_line_of_a_whole_run Droid slow_page ∅ eq_refl).
  - reflexivity.
  - intros x Hx. vm_compute in Hx. injection Hx as <-. reflexivity.
Defined.

Lemma exit_status_zero_only_if_witness :
  exit_status (main_of Droid healthy (boot ∅)).1 = Some 0 /\
  shot_fails healthy = None /\ close_fails healthy = None.
Proof.
  split; [reflexivity|].
  pose proof (exit_status_zero_only_if Droid healthy (boot ∅) eq_refl) as H.
  exact (conj (proj1 (proj2 (proj2 (proj2 H))))
              (proj1 (proj2 (proj2 (proj2 (proj2 H)))))).
Defined.
